(** * Cinna GraphRAG backend ([cinna-graphrag/app.py])

    A shallow embedding of the two request handlers of the backend, [root]
    and [recommend_movies], together with the request model
    [RecommendationRequest], and the properties the specification states
    about them.

    Python values are embedded as a tagged union, dictionaries as
    association lists in insertion order, and handler bodies as computations
    in a small state-and-exception monad over the module's globals. *)

From Stdlib Require Import ZArith List String Ascii Bool Lia.
From Stdlib Require Import PrimFloat.
Import ListNotations.

Set Warnings "-inexact-float,-register-all".
Local Open Scope string_scope.

(** ** Python values *)

Module Py.

(** The run-time values the handlers build and the JSON bodies they
    receive.  [VFloat] carries an IEEE binary64 number, as Python's
    [float] does. *)
Inductive value : Type :=
| VNone
| VBool (b : bool)
| VInt (n : Z)
| VFloat (x : float)
| VStr (s : string)
| VList (xs : list value)
| VDict (kvs : list (string * value)).

Arguments VInt n%_Z.
Arguments VFloat x%_float.

(** Python's [type(v)], restricted to the classes above. *)
Inductive pytype : Type :=
| NoneType | bool_ | int_ | float_ | str_ | list_ | dict_.

Definition type_of (v : value) : pytype :=
  match v with
  | VNone => NoneType
  | VBool _ => bool_
  | VInt _ => int_
  | VFloat _ => float_
  | VStr _ => str_
  | VList _ => list_
  | VDict _ => dict_
  end.

(** [d[k] = v]: an existing key keeps its position and takes the new
    value, a new key goes last. *)
Fixpoint setitem (k : string) (v : value) (d : list (string * value))
  : list (string * value) :=
  match d with
  | [] => [(k, v)]
  | (k', v') :: d' =>
      if String.eqb k k' then (k, v) :: d' else (k', v') :: setitem k v d'
  end.

(** [d.get(k)]. *)
Fixpoint getitem (k : string) (d : list (string * value)) : option value :=
  match d with
  | [] => None
  | (k', v) :: d' => if String.eqb k k' then Some v else getitem k d'
  end.

(** A dictionary display [{k1: v1, ..., kn: vn}]: the items are inserted
    from left to right. *)
Definition dict (items : list (string * value)) : value :=
  VDict (fold_left (fun d kv => setitem (fst kv) (snd kv) d) items []).

(** [v.get(k)] on any value: only a dictionary has items. *)
Definition item (k : string) (v : value) : option value :=
  match v with
  | VDict d => getitem k d
  | _ => None
  end.

(** The keys of a dictionary, each with the class of its value. *)
Definition fields (v : value) : option (list (string * pytype)) :=
  match v with
  | VDict d => Some (map (fun kv => (fst kv, type_of (snd kv))) d)
  | _ => None
  end.

End Py.
Import Py.

(** ** Type annotations and validation against them *)

Module Typing.

(** The annotations the request model uses: [str] and [List[...]]. *)
Inductive annotation : Type :=
| Str
| ListOf (a : annotation).

(** The validated, typed content an annotation stands for. *)
Fixpoint denote (a : annotation) : Type :=
  match a with
  | Str => string
  | ListOf a' => list (denote a')
  end.

(** A typed content seen as a plain value again. *)
Fixpoint inject (a : annotation) : denote a -> value :=
  match a return denote a -> value with
  | Str => fun s => VStr s
  | ListOf a' => fun xs => VList (map (inject a') xs)
  end.

(** All-or-nothing traversal of a list. *)
Fixpoint traverse {A B : Type} (f : A -> option B) (xs : list A)
  : option (list B) :=
  match xs with
  | [] => Some []
  | x :: xs' =>
      match f x with
      | None => None
      | Some y =>
          match traverse f xs' with
          | None => None
          | Some ys => Some (y :: ys)
          end
      end
  end.

(** Validation of a value against an annotation, without coercion: a
    [str] field takes a string only, a [List[a]] field takes a list all of
    whose elements validate against [a]. *)
Fixpoint validate (a : annotation) : value -> option (denote a) :=
  match a return value -> option (denote a) with
  | Str => fun v =>
      match v with
      | VStr s => Some s
      | _ => None
      end
  | ListOf a' => fun v =>
      match v with
      | VList xs => traverse (validate a') xs
      | _ => None
      end
  end.

End Typing.
Import Typing.

(** ** The application module *)

Module App.

(** *** Module globals

    The only module-level object is [app], the [FastAPI] instance.  The
    instance [FastAPI()] returns already holds the framework's own
    documentation routes; the route decorators then register the two
    handlers in it, in the order of the module body. *)

Inductive http_method : Type :=
| GET | HEAD | POST | PUT | DELETE | CONNECT | OPTIONS | TRACE | PATCH.

(** What a route calls: one of the framework's documentation pages or one
    of the module's handlers. *)
Inductive endpoint : Type :=
| ep_openapi
| ep_swagger_ui_html
| ep_swagger_ui_redirect
| ep_redoc_html
| ep_root
| ep_recommend_movies.

Record route : Type :=
  { route_methods : list http_method;
    route_path : string;
    route_endpoint : endpoint }.

Record FastAPI : Type := { routes : list route }.

Record globals : Type := { app : FastAPI }.

(** [FastAPI()] with its default arguments: the schema and the two
    documentation pages with the redirect page of the first, each served
    for GET and HEAD. *)
Definition FastAPI_new : FastAPI :=
  {| routes :=
       [ {| route_methods := [GET; HEAD];
            route_path := "/openapi.json";
            route_endpoint := ep_openapi |};
         {| route_methods := [GET; HEAD];
            route_path := "/docs";
            route_endpoint := ep_swagger_ui_html |};
         {| route_methods := [GET; HEAD];
            route_path := "/docs/oauth2-redirect";
            route_endpoint := ep_swagger_ui_redirect |};
         {| route_methods := [GET; HEAD];
            route_path := "/redoc";
            route_endpoint := ep_redoc_html |} ] |}.

(** [@app.get(p)] and [@app.post(p)]: the handler is appended to the
    routes of [app], under the one method of the decorator. *)
Definition add_route (m : http_method) (p : string) (e : endpoint)
                     (g : globals) : globals :=
  {| app := {| routes := routes (app g)
                         ++ [{| route_methods := [m];
                                route_path := p;
                                route_endpoint := e |}] |} |}.

(** The globals once the module body has run: [app = FastAPI()], then
    [@app.get("/")] and [@app.post("/recommendations")]. *)
Definition module_globals : globals :=
  add_route POST "/recommendations" ep_recommend_movies
    (add_route GET "/" ep_root
       {| app := FastAPI_new |}).

(** *** Handler computations

    A handler runs against the globals and either returns a value or
    raises. *)

Inductive exn : Type :=
| KeyError (k : string)
| TypeError
| AttributeError (name : string).

Inductive outcome (A : Type) : Type :=
| Returned (a : A)
| Raised (e : exn).

Arguments Returned {A} a.
Arguments Raised {A} e.

Definition M (A : Type) : Type := globals -> outcome A * globals.

Definition ret {A : Type} (a : A) : M A := fun g => (Returned a, g).

Definition bind {A B : Type} (m : M A) (k : A -> M B) : M B :=
  fun g =>
    match m g with
    | (Returned a, g') => k a g'
    | (Raised e, g') => (Raised e, g')
    end.

Notation "x <- m ;; k" := (bind m (fun x => k))
  (at level 61, m at next level, right associativity).

(** *** The request model

    [class RecommendationRequest(BaseModel): genres: List[str]] *)

Record RecommendationRequest : Type := { genres : list string }.

Inductive validation_error : Type :=
| Missing (field : string)
| WrongType (field : string) (expected : annotation).

(** Building the model from a request body.  [app.py] only declares the
    model; the hosting framework builds it before the handler is called.
    Its behaviour on the declared field is taken to be: the [genres] field
    must be present and validate against [List[str]] without coercion;
    other keys are ignored. *)
Definition model_validate (body : value)
  : validation_error + RecommendationRequest :=
  match item "genres" body with
  | None => inl (Missing "genres")
  | Some v =>
      match validate (ListOf Str) v with
      | None => inl (WrongType "genres" (ListOf Str))
      | Some gs => inr {| genres := gs |}
      end
  end.

(** *** The handlers *)

(** [def root() -> Dict[str, str]] *)
Definition root : M value :=
  ret (dict [("status", VStr "Cinna GraphRAG backend is running!")]).

(** [def recommend_movies(request: RecommendationRequest) -> Dict[str, Any]] *)
Definition recommend_movies (request : RecommendationRequest) : M value :=
  let movies :=
    VList
      [ dict [("id", VInt 1);
              ("title", VStr "Inception");
              ("overview", VStr "A thief enters dreams to steal secrets.");
              ("release_date", VStr "2010-07-16");
              ("poster_path", VStr "/9gk7adHYeDvHkCSEqAvQNLV5Uge.jpg");
              ("vote_average", VFloat 8.8)];
        dict [("id", VInt 2);
              ("title", VStr "Dune: Part Two");
              ("overview",
                VStr "Paul unites with the Fremen against Harkonnen.");
              ("release_date", VStr "2024-03-01");
              ("poster_path", VStr "/1E5baAaEse26fej7uHcjOgEE2t2.jpg");
              ("vote_average", VFloat 8.6)];
        dict [("id", VInt 3);
              ("title", VStr "Interstellar");
              ("overview",
                VStr "A crew travels through a wormhole for humanity.");
              ("release_date", VStr "2014-11-07");
              ("poster_path", VStr "/gEU2QniE6E77NI6lCU6MxlNBvIx.jpg");
              ("vote_average", VFloat 8.7)] ]
  in
  ret (dict [("query", inject (ListOf Str) (genres request));
             ("response", movies)]).

(** *** The operations as served

    [GET /] calls [root]; [POST /recommendations] builds the model from
    the body and calls [recommend_movies] on it.  A body that does not
    validate is answered with a client error and the handler is not
    called; an exception escaping a handler is a server error. *)

Inductive http_response : Type :=
| OK (body : value)
| UnprocessableEntity (e : validation_error)
| InternalServerError (e : exn).

Definition respond (m : M value) : globals -> http_response * globals :=
  fun g =>
    match m g with
    | (Returned v, g') => (OK v, g')
    | (Raised e, g') => (InternalServerError e, g')
    end.

Definition get_root : globals -> http_response * globals :=
  respond root.

Definition post_recommendations (body : value)
  : globals -> http_response * globals :=
  fun g =>
    match model_validate body with
    | inl e => (UnprocessableEntity e, g)
    | inr request => respond (recommend_movies request) g
    end.

(** *** Sequences of calls

    Serving one call after the other, each against the globals the
    previous one left. *)

Inductive call : Type :=
| call_root
| call_recommend_movies (request : RecommendationRequest).

Definition invoke (c : call) : M value :=
  match c with
  | call_root => root
  | call_recommend_movies request => recommend_movies request
  end.

Fixpoint run (cs : list call) : M (list value) :=
  match cs with
  | [] => ret []
  | c :: cs' =>
      v <- invoke c ;;
      vs <- run cs' ;;
      ret (v :: vs)
  end.

End App.
Import App.

(** ** Specification vocabulary *)

(** A value that is a list of strings. *)
Definition list_of_strings (v : value) : Prop :=
  exists gs : list string, v = VList (map VStr gs).

(** A request body is malformed when its [genres] field is missing or is
    not a list of strings. *)
Definition malformed (body : value) : Prop :=
  item "genres" body = None \/
  exists v, item "genres" body = Some v /\ ~ list_of_strings v.

(** The shape of a movie record: its keys, each with the class of its
    value. *)
Definition MovieRecord_shape : list (string * pytype) :=
  [("id", int_); ("title", str_); ("overview", str_);
   ("release_date", str_); ("poster_path", str_); ("vote_average", float_)].

Definition is_digit (c : ascii) : bool :=
  let n := nat_of_ascii c in (48 <=? n)%nat && (n <=? 57)%nat.

(** The form YYYY-MM-DD: ten characters, hyphens at the fifth and the
    eighth (indices 4 and 7), digits everywhere else. *)
Definition iso_date_form (s : string) : bool :=
  (String.length s =? 10)%nat &&
  forallb
    (fun i =>
       match String.get i s with
       | Some c =>
           if (i =? 4)%nat || (i =? 7)%nat then Ascii.eqb c "-" else is_digit c
       | None => false
       end)
    (seq 0 10).

(** The movies of a handler result, when it returned a dictionary whose
    [response] item is a list. *)
Definition response_of (r : outcome value * globals) : option (list value) :=
  match fst r with
  | Returned v =>
      match item "response" v with
      | Some (VList ms) => Some ms
      | _ => None
      end
  | Raised _ => None
  end.

(** The value a served call answered with, when it succeeded. *)
Definition reply_of (r : http_response * globals) : option value :=
  match fst r with
  | OK v => Some v
  | _ => None
  end.

(** ** The definitions on concrete inputs *)

Example dict_display_repeated_key :
  dict [("a", VInt 1); ("b", VInt 2); ("a", VInt 3)] =
  VDict [("a", VInt 3); ("b", VInt 2)].
Proof. reflexivity. Qed.

Example module_globals_routes :
  map (fun r => (route_methods r, route_path r, route_endpoint r))
      (routes (app module_globals)) =
  [([GET; HEAD], "/openapi.json", ep_openapi);
   ([GET; HEAD], "/docs", ep_swagger_ui_html);
   ([GET; HEAD], "/docs/oauth2-redirect", ep_swagger_ui_redirect);
   ([GET; HEAD], "/redoc", ep_redoc_html);
   ([GET], "/", ep_root);
   ([POST], "/recommendations", ep_recommend_movies)].
Proof. reflexivity. Qed.

Example model_validate_missing :
  model_validate (dict []) = inl (Missing "genres") /\
  model_validate (VList []) = inl (Missing "genres").
Proof. split; reflexivity. Qed.

Example model_validate_wrong_type :
  model_validate (dict [("genres", VStr "horror")]) =
    inl (WrongType "genres" (ListOf Str)) /\
  model_validate (dict [("genres", VList [VStr "horror"; VInt 1])]) =
    inl (WrongType "genres" (ListOf Str)) /\
  model_validate (dict [("genres", VNone)]) =
    inl (WrongType "genres" (ListOf Str)).
Proof. repeat split; reflexivity. Qed.

Example model_validate_other_keys :
  model_validate (dict [("limit", VInt 5); ("genres", VList [VStr "drama"])]) =
  inr {| genres := ["drama"] |}.
Proof. reflexivity. Qed.

Example iso_date_form_rejects :
  iso_date_form "2010/07/16" = false /\
  iso_date_form "2010-7-16" = false /\
  iso_date_form "16-07-2010" = false /\
  iso_date_form "2010-07-16T00" = false.
Proof. repeat split; reflexivity. Qed.

Example vote_average_binary64 :
  (8.8 = 0x1.199999999999ap+3)%float /\
  (8.6 = 0x1.1333333333333p+3)%float /\
  (8.7 = 0x1.1666666666666p+3)%float.
Proof. repeat split; reflexivity. Qed.

(** ** Validation against an annotation *)

Section Validation.

Lemma traverse_map_Some {A B : Type} (f : A -> option B) (g : B -> A) :
  (forall y, f (g y) = Some y) ->
  forall ys, traverse f (map g ys) = Some ys.
Proof.
  intros Hfg ys.
  induction ys as [| y ys IH]; simpl.
  - reflexivity.
  - now rewrite Hfg, IH.
Qed.

Lemma traverse_Some_map {A B : Type} (f : A -> option B) (g : B -> A) :
  (forall x y, f x = Some y -> x = g y) ->
  forall xs ys, traverse f xs = Some ys -> xs = map g ys.
Proof.
  intros Hfg xs.
  induction xs as [| x xs IH]; simpl; intros ys Hys.
  - now inversion Hys.
  - destruct (f x) as [y |] eqn:Hx; [| discriminate].
    destruct (traverse f xs) as [ys' |] eqn:Hxs; [| discriminate].
    inversion Hys; subst ys; simpl.
    now rewrite (Hfg x y Hx), (IH ys' eq_refl).
Qed.

(** A typed content validates to itself. *)
Lemma validate_inject (a : annotation) :
  forall x : denote a, validate a (inject a x) = Some x.
Proof.
  induction a as [| a IH]; intros x; simpl.
  - reflexivity.
  - now apply traverse_map_Some.
Qed.

(** Validation changes nothing: what validates is the typed content. *)
Lemma validate_sound (a : annotation) :
  forall (v : value) (x : denote a), validate a v = Some x -> v = inject a x.
Proof.
  induction a as [| a IH]; intros v x Hv; simpl in *.
  - destruct v; try discriminate. now inversion Hv.
  - destruct v as [| | | | | xs |]; try discriminate.
    f_equal. now apply (traverse_Some_map (validate a)).
Qed.

Lemma validate_list_of_strings (v : value) :
  list_of_strings v <-> exists gs, validate (ListOf Str) v = Some gs.
Proof.
  split; intros [gs Hgs]; exists gs.
  - subst v. exact (validate_inject (ListOf Str) gs).
  - exact (validate_sound (ListOf Str) v gs Hgs).
Qed.

(** [model_validate] accepts exactly the bodies that are not malformed. *)
Lemma model_validate_inr (body : value) (request : RecommendationRequest) :
  model_validate body = inr request <->
  item "genres" body = Some (VList (map VStr (genres request))).
Proof.
  unfold model_validate. split.
  - destruct (item "genres" body) as [v |]; [| discriminate].
    destruct (validate (ListOf Str) v) as [gs |] eqn:Hv; [| discriminate].
    intros Hr. inversion Hr; subst request; simpl.
    f_equal. exact (validate_sound (ListOf Str) v gs Hv).
  - intros ->. destruct request as [gs]. cbn [genres].
    change (VList (map VStr gs)) with (inject (ListOf Str) gs).
    now rewrite validate_inject.
Qed.

Lemma model_validate_inl (body : value) :
  (exists e, model_validate body = inl e) <-> malformed body.
Proof.
  unfold model_validate, malformed.
  destruct (item "genres" body) as [v |].
  - destruct (validate (ListOf Str) v) as [gs |] eqn:Hv.
    + split.
      * intros [e He]. discriminate.
      * intros [Hnone | (v' & Hv' & Hnot)]; [discriminate |].
        inversion Hv'; subst v'. exfalso. apply Hnot.
        apply validate_list_of_strings. now exists gs.
    + split; [| now eexists].
      intros _. right. exists v. split; [reflexivity |].
      intros Hl. apply validate_list_of_strings in Hl.
      destruct Hl as [gs Hgs]. congruence.
  - split; [now left | now eexists].
Qed.

End Validation.

(** ** The handlers never raise and leave the globals alone *)

Lemma root_returns (g : globals) :
  root g =
  (Returned (VDict [("status", VStr "Cinna GraphRAG backend is running!")]), g).
Proof. reflexivity. Qed.

Lemma recommend_movies_returns (request : RecommendationRequest) (g : globals) :
  exists ms,
    recommend_movies request g =
    (Returned (VDict [("query", VList (map VStr (genres request)));
                      ("response", VList ms)]), g).
Proof. eexists. reflexivity. Qed.

Lemma invoke_returns (c : call) :
  exists v, forall g, invoke c g = (Returned v, g).
Proof.
  destruct c as [| request]; simpl.
  - eexists. intros g. apply root_returns.
  - eexists. intros g. reflexivity.
Qed.

(** What a call returns, as a function of the call alone. *)
Lemma run_returns :
  exists f : call -> value,
    forall (cs : list call) (g : globals), run cs g = (Returned (map f cs), g).
Proof.
  exists (fun c =>
            match fst (invoke c module_globals) with
            | Returned v => v
            | Raised _ => VNone
            end).
  intros cs g.
  induction cs as [| c cs IH]; simpl.
  - reflexivity.
  - unfold bind at 1.
    destruct c as [| request]; simpl; unfold bind; now rewrite IH.
Qed.

(** ** The specification's properties *)

(** C1: for every request, whatever its genres (the empty list included),
    the [response] item of the value [recommend_movies] returns is one and
    the same list of three movie records: it does not depend on the
    request. *)
Theorem recommend_movies_response_constant :
  exists movies : list value,
    List.length movies = 3 /\
    Forall (fun m => fields m = Some MovieRecord_shape) movies /\
    forall (request : RecommendationRequest) (g : globals),
      response_of (recommend_movies request g) = Some movies.
Proof.
  eexists. split; [| split]; cycle 2.
  - intros request g. reflexivity.
  - reflexivity.
  - repeat constructor.
Qed.

(** C2: for every request, the [query] item of the value
    [recommend_movies] returns is the request's [genres] list: the same
    strings in the same order. *)
Theorem recommend_movies_query_echoes_genres :
  forall (request : RecommendationRequest) (g : globals),
  exists v : value,
    fst (recommend_movies request g) = Returned v /\
    item "query" v = Some (VList (map VStr (genres request))).
Proof.
  intros request g.
  destruct (recommend_movies_returns request g) as [ms Hms].
  rewrite Hms. eexists. split; reflexivity.
Qed.

(** C3: with [genres = []] the handler returns [query = []] and the three
    movies titled Inception, Dune: Part Two and Interstellar, in that order;
    with [genres = ["horror", "comedy"]] it returns
    [query = ["horror", "comedy"]] and the same three movies.  The same holds
    of the two bodies posted to the endpoint. *)
Theorem recommend_movies_scenarios :
  exists m1 m2 m3 : value,
    map (item "title") [m1; m2; m3] =
      [Some (VStr "Inception"); Some (VStr "Dune: Part Two");
       Some (VStr "Interstellar")] /\
    forall g : globals,
      recommend_movies {| genres := [] |} g =
        (Returned (VDict [("query", VList []);
                          ("response", VList [m1; m2; m3])]), g) /\
      recommend_movies {| genres := ["horror"; "comedy"] |} g =
        (Returned (VDict [("query", VList [VStr "horror"; VStr "comedy"]);
                          ("response", VList [m1; m2; m3])]), g) /\
      post_recommendations (dict [("genres", VList [])]) g =
        (OK (VDict [("query", VList []);
                    ("response", VList [m1; m2; m3])]), g) /\
      post_recommendations
        (dict [("genres", VList [VStr "horror"; VStr "comedy"])]) g =
        (OK (VDict [("query", VList [VStr "horror"; VStr "comedy"]);
                    ("response", VList [m1; m2; m3])]), g).
Proof.
  do 3 eexists. split; cycle 1.
  - intros g. repeat split; reflexivity.
  - reflexivity.
Qed.

(** C4: posting a body to the recommend operation fails exactly when the
    body is malformed (its [genres] field is missing or is not a list of
    strings), and the failure is a validation error; a body whose [genres]
    field is a list of strings is answered successfully; no call ends in a
    server error, and the handler returns on every request. *)
Theorem recommend_fails_iff_malformed :
  forall (body : value) (g : globals),
    ((exists e, post_recommendations body g = (UnprocessableEntity e, g))
     <-> malformed body) /\
    ((exists v, post_recommendations body g = (OK v, g))
     <-> exists gs : list string,
           item "genres" body = Some (VList (map VStr gs))) /\
    (forall e, fst (post_recommendations body g) <> InternalServerError e) /\
    (forall request : RecommendationRequest,
       exists v, recommend_movies request g = (Returned v, g)).
Proof.
  intros body g.
  assert (Hhandler : forall request : RecommendationRequest,
             exists v, recommend_movies request g = (Returned v, g)).
  { intros request.
    destruct (recommend_movies_returns request g) as [ms Hms]; eauto. }
  unfold post_recommendations.
  destruct (model_validate body) as [e | request] eqn:Hbody.
  - repeat split; try (intros; discriminate); auto.
    + intros _. apply model_validate_inl. now exists e.
    + intros _. now exists e.
    + intros [v Hv]. discriminate.
    + intros [gs Hgs].
      apply (model_validate_inr body {| genres := gs |}) in Hgs. congruence.
  - destruct (Hhandler request) as [v Hv].
    unfold respond. rewrite Hv. repeat split; try (intros; discriminate); auto.
    + intros [e He]. discriminate.
    + intros Hbad. apply model_validate_inl in Hbad.
      destruct Hbad as [e He]. congruence.
    + intros _. exists (genres request). now apply model_validate_inr.
    + intros _. now exists v.
Qed.

(** C5: the health check takes no input, never raises, leaves the globals
    as they are, and always returns the same record, made of the single key
    [status] with the string that says the backend is running. *)
Theorem root_fixed_status :
  forall g : globals,
    root g =
      (Returned
         (VDict [("status", VStr "Cinna GraphRAG backend is running!")]), g) /\
    get_root g =
      (OK (VDict [("status", VStr "Cinna GraphRAG backend is running!")]), g).
Proof.
  intros g. split.
  - apply root_returns.
  - unfold get_root, respond. now rewrite root_returns.
Qed.

(** C6: every element of the [response] list is a record with exactly the
    keys id, title, overview, release_date, poster_path and vote_average,
    holding an integer, four strings and a floating-point number. *)
Theorem response_elements_are_movie_records :
  forall (request : RecommendationRequest) (g : globals),
  exists ms : list value,
    response_of (recommend_movies request g) = Some ms /\
    Forall (fun m => fields m = Some MovieRecord_shape) ms.
Proof.
  intros request g. eexists. split.
  - reflexivity.
  - repeat constructor.
Qed.

(** C7: two calls of [recommend_movies] on requests with equal genres
    return the same value, from whatever globals; so do two calls of [root];
    neither handler changes the globals; and in any sequence of calls each
    call returns what a fixed function of that call alone gives. *)
Theorem handlers_deterministic_stateless :
  (forall (r1 r2 : RecommendationRequest) (g1 g2 : globals),
     genres r1 = genres r2 ->
     fst (recommend_movies r1 g1) = fst (recommend_movies r2 g2)) /\
  (forall g1 g2 : globals, fst (root g1) = fst (root g2)) /\
  (forall (r : RecommendationRequest) (g : globals),
     snd (recommend_movies r g) = g) /\
  (forall g : globals, snd (root g) = g) /\
  (exists f : call -> value,
     forall (cs : list call) (g : globals),
       run cs g = (Returned (map f cs), g)).
Proof.
  split; [| split; [| split; [| split]]].
  - intros [gs1] [gs2] g1 g2 Hgs. simpl in Hgs. subst gs2. reflexivity.
  - reflexivity.
  - reflexivity.
  - reflexivity.
  - exact run_returns.
Qed.

Lemma handlers_deterministic_stateless_witness :
  genres {| genres := ["horror"; "comedy"] |} = ["horror"; "comedy"] /\
  fst (recommend_movies {| genres := ["horror"; "comedy"] |} module_globals) =
  fst (recommend_movies {| genres := ["horror"; "comedy"] |}
         {| app := {| routes := [] |} |}).
Proof.
  split.
  - reflexivity.
  - apply (proj1 handlers_deterministic_stateless). reflexivity.
Defined.

(** C8: the status string of the health check is
    "Cinna GraphRAG backend is running!". *)
Theorem root_status_string :
  forall g : globals,
  exists v : value,
    fst (root g) = Returned v /\
    item "status" v = Some (VStr "Cinna GraphRAG backend is running!").
Proof.
  intros g. rewrite root_returns. eexists. split; reflexivity.
Qed.

(** C9: the three movies have the ids 1, 2 and 3, in that order, hence
    pairwise distinct, and pairwise distinct titles. *)
Theorem response_ids_and_titles_distinct :
  forall (request : RecommendationRequest) (g : globals),
  exists ms : list value,
    response_of (recommend_movies request g) = Some ms /\
    map (item "id") ms = [Some (VInt 1); Some (VInt 2); Some (VInt 3)] /\
    NoDup (map (item "id") ms) /\
    NoDup (map (item "title") ms) /\
    ~ In None (map (item "title") ms).
Proof.
  intros request g. eexists. split; [reflexivity |].
  split; [reflexivity |].
  repeat split.
  - repeat constructor; simpl; intuition discriminate.
  - repeat constructor; simpl; intuition discriminate.
  - simpl. intuition discriminate.
Qed.

(** C10: the release date of every returned movie is a string of the form
    YYYY-MM-DD: ten characters, hyphens at the fifth and the eighth, digits
    elsewhere. *)
Theorem response_release_dates_iso :
  forall (request : RecommendationRequest) (g : globals),
  exists ms : list value,
    response_of (recommend_movies request g) = Some ms /\
    Forall
      (fun m =>
         exists s : string,
           item "release_date" m = Some (VStr s) /\ iso_date_form s = true)
      ms.
Proof.
  intros request g. eexists. split; [reflexivity |].
  repeat constructor; eexists; split; reflexivity.
Qed.


(** ** Further properties of the handlers *)

Lemma map_VStr_injective (gs1 gs2 : list string) :
  map VStr gs1 = map VStr gs2 -> gs1 = gs2.
Proof.
  revert gs2.
  induction gs1 as [| s1 gs1 IH]; intros [| s2 gs2] Heq;
    simpl in Heq; try discriminate.
  - reflexivity.
  - injection Heq as Hs Hrest. f_equal; [exact Hs | now apply IH].
Qed.

(** X1: when a posted body is answered successfully, the [query] item of
    the answer is the [genres] item of the body, as it was sent. *)
Theorem post_recommendations_echoes_body :
  forall (body : value) (g : globals) (v : value),
    reply_of (post_recommendations body g) = Some v ->
    item "query" v = item "genres" body.
Proof.
  intros body g v. unfold reply_of, post_recommendations.
  destruct (model_validate body) as [e | request] eqn:Hbody; simpl.
  - discriminate.
  - apply model_validate_inr in Hbody.
    intros Hv. injection Hv as <-. now rewrite Hbody.
Qed.

Lemma post_recommendations_echoes_body_witness :
  reply_of
    (post_recommendations
       (dict [("limit", VInt 5);
              ("genres", VList [VStr "horror"; VStr "comedy"])])
       module_globals) <> None /\
  forall v : value,
    reply_of
      (post_recommendations
         (dict [("limit", VInt 5);
                ("genres", VList [VStr "horror"; VStr "comedy"])])
         module_globals) = Some v ->
    item "query" v = Some (VList [VStr "horror"; VStr "comedy"]).
Proof.
  split.
  - discriminate.
  - intros v Hv.
    exact (post_recommendations_echoes_body _ module_globals v Hv).
Defined.

(** X2: the [query] a call returns is itself a valid [genres] field:
    a body made of it validates to the request the call was made with, and
    posting that body is answered with the very value the call returned. *)
Theorem recommend_movies_query_round_trip :
  forall (request : RecommendationRequest) (g : globals),
  exists v q : value,
    recommend_movies request g = (Returned v, g) /\
    item "query" v = Some q /\
    model_validate (dict [("genres", q)]) = inr request /\
    post_recommendations (dict [("genres", q)]) g = (OK v, g).
Proof.
  intros request g.
  destruct (recommend_movies_returns request g) as [ms Hms].
  assert (Hvalid : model_validate
                     (dict [("genres", VList (map VStr (genres request)))]) =
                   inr request).
  { apply model_validate_inr. reflexivity. }
  do 2 eexists. split; [exact Hms |]. split; [reflexivity |].
  split; [exact Hvalid |].
  unfold post_recommendations. rewrite Hvalid.
  unfold respond. now rewrite Hms.
Qed.

(** X3: whatever the request, the returned dictionary has exactly the two
    keys [query] and [response], in that order, both lists; the [query]
    list has one entry per genre of the request and every entry is a
    string. *)
Theorem recommend_movies_reply_shape :
  forall (request : RecommendationRequest) (g : globals),
  exists (v : value) (q : list value),
    fst (recommend_movies request g) = Returned v /\
    fields v = Some [("query", list_); ("response", list_)] /\
    item "query" v = Some (VList q) /\
    List.length q = List.length (genres request) /\
    Forall (fun x => type_of x = str_) q.
Proof.
  intros request g.
  destruct (recommend_movies_returns request g) as [ms Hms].
  rewrite Hms. do 2 eexists.
  split; [reflexivity |]. split; [reflexivity |]. split; [reflexivity |].
  split.
  - now rewrite length_map.
  - apply Forall_forall. intros x Hx.
    apply in_map_iff in Hx. destruct Hx as (s & <- & _). reflexivity.
Qed.

(** X4: the returned value tells the requests apart: two calls that return
    equal values were made with equal requests. *)
Theorem recommend_movies_injective :
  forall (r1 r2 : RecommendationRequest) (g1 g2 : globals),
    fst (recommend_movies r1 g1) = fst (recommend_movies r2 g2) ->
    r1 = r2.
Proof.
  intros [gs1] [gs2] g1 g2.
  destruct (recommend_movies_returns {| genres := gs1 |} g1) as [ms1 H1].
  destruct (recommend_movies_returns {| genres := gs2 |} g2) as [ms2 H2].
  rewrite H1, H2. simpl. intros Heq.
  injection Heq as Hq _. f_equal. now apply map_VStr_injective.
Qed.

Lemma recommend_movies_injective_witness :
  fst (recommend_movies {| genres := ["drama"] |} module_globals) =
  fst (recommend_movies {| genres := ["drama"] |}
         {| app := {| routes := [] |} |}) /\
  {| genres := ["drama"] |} = {| genres := ["drama"] |}.
Proof.
  split.
  - reflexivity.
  - apply (recommend_movies_injective _ _ module_globals
             {| app := {| routes := [] |} |}).
    reflexivity.
Defined.
